(** * krx62: hwmon driver for NZXT Kraken X42/X52/X62/X72

    A shallow embedding of [krx62.c] and the properties of its report
    decoder ([krx62_raw_event]), of its sensor table ([krx62_info],
    [krx62_read], [krx62_read_string], [krx62_is_visible]) and of its
    attach and detach ([krx62_probe], [krx62_remove]).

    Conventions of the embedding:
    - C integers are [Z]; [int] arithmetic has its 32-bit wrap-around
      written out ([wrap_int]); a [u8] is a [Byte.byte], read through [u8];
    - the driver data ([struct krx62_device_data]) reached through
      [dev_get_drvdata] / [hid_get_drvdata] is the state threaded by the
      monad [M]; an array access outside its bounds is [Undef];
    - an out-parameter ([long *val], [const char **str]) is passed in with
      its content before the call and returned with its content after. *)

From Stdlib Require Import ZArith Lia Strings.Byte.
From stdpp Require Import base option list vector strings.

Local Open Scope Z_scope.

(** ** C data *)

(** The value of a [u8]. *)
Definition u8 (b : byte) : Z := Z.of_N (Byte.to_N b).

(** A 32-bit [int], two's complement. *)
Definition wrap_int (z : Z) : Z := (z + 2 ^ 31) mod 2 ^ 32 - 2 ^ 31.

(** A [u32]. *)
Definition wrap_u32 (z : Z) : Z := z mod 2 ^ 32.

(** [LONG_MAX] where [long] is narrowest (32-bit kernels). *)
Definition LONG_MAX : Z := 2 ^ 31 - 1.

(** errno of [-EINVAL] and [-ENOMEM] (asm-generic/errno-base.h). *)
Definition EINVAL : Z := 22.
Definition ENOMEM : Z := 12.

(** [enum hwmon_sensor_types] of linux/hwmon.h. *)
Inductive hwmon_sensor_types : Set :=
  | hwmon_chip
  | hwmon_temp
  | hwmon_in
  | hwmon_curr
  | hwmon_power
  | hwmon_energy
  | hwmon_humidity
  | hwmon_fan
  | hwmon_pwm.

Global Instance hwmon_sensor_types_eq_dec : EqDecision hwmon_sensor_types.
Proof. solve_decision. Defined.

Definition KRX62_RPM_INPUTS : nat := 2.

(** [struct krx62_device_data]; the two pointers are kept as addresses,
    0 being [NULL]. *)
Record krx62_device_data : Type := {
  hid_dev : Z;
  hwmon_dev : Z;
  temp_input : Z;
  fan_input : vec Z KRX62_RPM_INPUTS
}.

(** The part of [struct hid_report] the driver looks at. *)
Record hid_report : Type := { id : Z }.

(** ** Outcomes and the driver monad *)

(** What running a piece of the driver gives: a result, or undefined
    behaviour (an array read or written outside its bounds). *)
Inductive outcome (A : Type) : Type :=
  | Done (a : A)
  | Undef.
Arguments Done {A} a.
Arguments Undef {A}.

(** Computations over the driver data. *)
Definition M (A : Type) : Type :=
  krx62_device_data -> outcome (A * krx62_device_data).

Global Instance M_ret : MRet M := fun A a ldata => Done (a, ldata).
Global Instance M_bind : MBind M := fun A B f m ldata =>
  match m ldata with
  | Done (a, ldata') => f a ldata'
  | Undef => Undef
  end.

(** A computation that does not look at the driver data. *)
Definition lift {A} (o : outcome A) : M A := fun ldata =>
  match o with
  | Done a => Done (a, ldata)
  | Undef => Undef
  end.

(** [arr[i]] for an [int] index [i]. *)
Definition index {A} (arr : list A) (i : Z) : outcome A :=
  if decide (0 <= i) then
    match arr !! Z.to_nat i with
    | Some a => Done a
    | None => Undef
    end
  else Undef.

(** [ldata->temp_input] *)
Definition load_temp_input : M Z := fun ldata => Done (temp_input ldata, ldata).

(** [ldata->fan_input[channel]] *)
Definition load_fan_input (channel : Z) : M Z := fun ldata =>
  lift (index (vec_to_list (fan_input ldata)) channel) ldata.

(** [ldata->temp_input = v] *)
Definition store_temp_input (v : Z) : M unit := fun ldata =>
  Done (tt, {| hid_dev := hid_dev ldata; hwmon_dev := hwmon_dev ldata;
               temp_input := v; fan_input := fan_input ldata |}).

(** [ldata->fan_input[i] = v], for a literal index [i]. *)
Definition store_fan_input (i : fin KRX62_RPM_INPUTS) (v : Z) : M unit := fun ldata =>
  Done (tt, {| hid_dev := hid_dev ldata; hwmon_dev := hwmon_dev ldata;
               temp_input := temp_input ldata;
               fan_input := vinsert i v (fan_input ldata) |}).

(** ** The hwmon callbacks *)

(** [krx62_is_visible]: the mode is the octal literal 0444. *)
Definition krx62_is_visible (data : krx62_device_data)
    (type : hwmon_sensor_types) (attr : Z) (channel : Z) : Z :=
  4 * 8 ^ 2 + 4 * 8 + 4.

(** [krx62_read]: the return value and the content of [*val]. *)
Definition krx62_read (type : hwmon_sensor_types) (attr : Z) (channel : Z)
    (val : Z) : M (Z * Z) :=
  match type with
  | hwmon_temp => v ← load_temp_input; mret (0, v)
  | hwmon_fan => v ← load_fan_input channel; mret (0, v)
  | _ => mret (- EINVAL, val)
  end.

Definition KRX62_TEMP_LABEL : string := "Coolant".

Definition krx62_fan_label : list string := ["Fans"; "Pump"].

(** [krx62_read_string]: the return value and the content of [*str]. *)
Definition krx62_read_string (type : hwmon_sensor_types) (attr : Z)
    (channel : Z) (str : string) : M (Z * string) :=
  match type with
  | hwmon_temp => mret (0, KRX62_TEMP_LABEL)
  | hwmon_fan => s ← lift (index krx62_fan_label channel); mret (0, s)
  | _ => mret (- EINVAL, str)
  end.

(** ** The report decoder *)

Definition STATUS_REPORT_ID : Z := 4.
Definition STATUS_MIN_BYTES : Z := 16.

(** [be16_to_cpup((__be16 * ) (data + off))] of linux/byteorder: the two
    bytes at [off], the first one the most significant. *)
Definition be16_to_cpup (data : list byte) (off : Z) : outcome Z :=
  match index data off, index data (off + 1) with
  | Done hi, Done lo => Done (Z.lor (Z.shiftl (u8 hi) 8) (u8 lo))
  | _, _ => Undef
  end.

(** [data[1] * 1000 + data[2] * 100], computed in [int]. *)
Definition temp_of_report (data : list byte) : outcome Z :=
  match index data 1, index data 2 with
  | Done whole, Done frac =>
      Done (wrap_int (wrap_int (u8 whole * 1000) + wrap_int (u8 frac * 100)))
  | _, _ => Undef
  end.

(** [krx62_raw_event]; the driver data of [hdev] is the state of [M]. *)
Definition krx62_raw_event (report : hid_report) (data : list byte)
    (size : Z) : M Z :=
  if decide (id report ≠ STATUS_REPORT_ID ∨ size < STATUS_MIN_BYTES) then
    mret 0
  else
    t ← lift (temp_of_report data);
    store_temp_input t;;
    f0 ← lift (be16_to_cpup data 3);
    store_fan_input 0%fin f0;;
    f1 ← lift (be16_to_cpup data 5);
    store_fan_input 1%fin f1;;
    mret 0.

(** The reports the HID core hands to the driver, one call of
    [krx62_raw_event] each: the report, the buffer and its [size]. *)
Definition raw_event_args : Type := hid_report * list byte * Z.

Fixpoint raw_events (evs : list raw_event_args) : M unit :=
  match evs with
  | [] => mret tt
  | (report, data, size) :: evs' =>
      krx62_raw_event report data size;; raw_events evs'
  end.

(** The statements of [krx62_raw_event] that write the driver data, in
    program order; each is one step for an observer of the driver data. *)
Definition krx62_raw_event_stores (data : list byte) : list (M unit) :=
  [ (t ← lift (temp_of_report data); store_temp_input t);
    (f0 ← lift (be16_to_cpup data 3); store_fan_input 0%fin f0);
    (f1 ← lift (be16_to_cpup data 5); store_fan_input 1%fin f1) ].

Fixpoint run_stores (stores : list (M unit)) : M unit :=
  match stores with
  | [] => mret tt
  | s :: stores' => s;; run_stores stores'
  end.

(** The driver data as it stands after each statement of a run. *)
Fixpoint states_after (stores : list (M unit)) (ldata : krx62_device_data)
    : list krx62_device_data :=
  match stores with
  | [] => []
  | s :: stores' =>
      match s ldata with
      | Done (_, ldata') => ldata' :: states_after stores' ldata'
      | Undef => []
      end
  end.

(** The driver data a reader on another CPU can find while
    [krx62_raw_event] runs: the handler takes no lock, so every state
    between two of its statements is one. *)
Definition visible_states (report : hid_report) (data : list byte) (size : Z)
    (ldata : krx62_device_data) : list krx62_device_data :=
  if decide (id report ≠ STATUS_REPORT_ID ∨ size < STATUS_MIN_BYTES) then []
  else states_after (krx62_raw_event_stores data) ldata.

(** ** Device attach *)

(** What the kernel services called by [krx62_probe] answer. *)
Record probe_env : Type := {
  devm_kzalloc_ok : bool;
  hid_parse : Z;
  hid_hw_start : Z;
  hid_hw_open : Z;
  devm_hwmon_device_register_with_info : Z
}.

(** [IS_ERR] of linux/err.h: the last [MAX_ERRNO] addresses. *)
Definition MAX_ERRNO : Z := 4095.
Definition IS_ERR (ptr : Z) : bool := bool_decide (- MAX_ERRNO <= ptr < 0).

(** The memory [devm_kzalloc] hands out. *)
Definition kzalloc_krx62_device_data : krx62_device_data :=
  {| hid_dev := 0; hwmon_dev := 0; temp_input := 0; fan_input := [# 0; 0] |}.

(** [krx62_probe]: the return value and the driver data attached to
    [hdev] by [hid_set_drvdata]. The calls that undo the HID setup on the
    error paths do not touch the driver data. *)
Definition krx62_probe (hdev : Z) (env : probe_env)
    : Z * option krx62_device_data :=
  if devm_kzalloc_ok env then
    let ldata := kzalloc_krx62_device_data in
    let ldata := {| hid_dev := hdev; hwmon_dev := hwmon_dev ldata;
                    temp_input := temp_input ldata;
                    fan_input := fan_input ldata |} in
    if decide (hid_parse env ≠ 0) then (hid_parse env, Some ldata)
    else if decide (hid_hw_start env ≠ 0) then (hid_hw_start env, Some ldata)
    else if decide (hid_hw_open env ≠ 0) then (hid_hw_open env, Some ldata)
    else
      let hwmon := devm_hwmon_device_register_with_info env in
      if IS_ERR hwmon then (hwmon, Some ldata)
      else (0, Some {| hid_dev := hid_dev ldata; hwmon_dev := hwmon;
                       temp_input := temp_input ldata;
                       fan_input := fan_input ldata |})
  else (- ENOMEM, None).

(** The driver data the driver can be in: attached by [krx62_probe], then
    changed by the callbacks. *)
Inductive reachable : krx62_device_data → Prop :=
  | reachable_probe hdev env ret ldata :
      krx62_probe hdev env = (ret, Some ldata) → reachable ldata
  | reachable_raw_event ldata report data size ret ldata' :
      reachable ldata →
      krx62_raw_event report data size ldata = Done (ret, ldata') →
      reachable ldata'
  | reachable_read ldata type attr channel val res ldata' :
      reachable ldata →
      krx62_read type attr channel val ldata = Done (res, ldata') →
      reachable ldata'
  | reachable_read_string ldata type attr channel str res ldata' :
      reachable ldata →
      krx62_read_string type attr channel str ldata = Done (res, ldata') →
      reachable ldata'.

(** ** The sensor table *)

(** [struct hwmon_channel_info]: [config] is the zero-terminated array. *)
Record hwmon_channel_info : Type := {
  type : hwmon_sensor_types;
  config : list Z
}.

(** The macro [HWMON_CHANNEL_INFO] of linux/hwmon.h: the [u32] words given,
    then the terminating 0. *)
Definition HWMON_CHANNEL_INFO (stype : hwmon_sensor_types) (words : list Z)
    : hwmon_channel_info :=
  {| type := stype; config := (wrap_u32 <$> words) ++ [0] |}.

(** [BIT] of linux/bits.h. *)
Definition BIT (nr : Z) : Z := Z.shiftl 1 nr.

Section SensorTable.

(** The attribute numbers of linux/hwmon.h ([enum hwmon_temp_attributes],
    [enum hwmon_fan_attributes]); their values differ between kernel
    versions, so the table is defined for any. *)
Variables hwmon_temp_input hwmon_temp_label : Z.
Variables hwmon_fan_input hwmon_fan_label : Z.

Definition HWMON_T_INPUT : Z := BIT hwmon_temp_input.
Definition HWMON_T_LABEL : Z := BIT hwmon_temp_label.
Definition HWMON_F_INPUT : Z := BIT hwmon_fan_input.
Definition HWMON_F_LABEL : Z := BIT hwmon_fan_label.

(** [krx62_info], a [NULL]-terminated array of pointers. *)
Definition krx62_info : list (option hwmon_channel_info) :=
  [ Some (HWMON_CHANNEL_INFO hwmon_temp [Z.lor HWMON_T_INPUT HWMON_T_LABEL]);
    Some (HWMON_CHANNEL_INFO hwmon_fan [Z.lor HWMON_F_INPUT HWMON_F_LABEL;
                                        Z.lor HWMON_F_INPUT HWMON_F_LABEL]);
    None ].

End SensorTable.

(** The entries of a [NULL]-terminated table. *)
Fixpoint table_entries {A} (table : list (option A)) : list A :=
  match table with
  | Some a :: table' => a :: table_entries table'
  | _ => []
  end.

(** The words of a zero-terminated [config]: one per channel. *)
Fixpoint config_words (config : list Z) : list Z :=
  match config with
  | [] => []
  | w :: config' => if decide (w = 0) then [] else w :: config_words config'
  end.

(** The channels a table declares, as the hwmon core walks it: for each
    entry, channel 0, 1, ... of its type, one per word of [config]. *)
Definition list_channels (info : list (option hwmon_channel_info))
    : list (hwmon_sensor_types * Z) :=
  ci ← table_entries info;
  (λ i, (type ci, Z.of_nat i)) <$> seq 0 (length (config_words (config ci))).

(** ** The wire format, as the specification gives it *)

(** The value of the byte at an offset of a report. *)
Definition byte_at (data : list byte) (off : nat) : Z :=
  from_option u8 0 (data !! off).

(** The big-endian 16-bit unsigned integer at an offset of a report. *)
Definition big_endian_u16 (data : list byte) (off : nat) : Z :=
  byte_at data off * 256 + byte_at data (off + 1).

Definition byte_of_Z (z : Z) : byte :=
  default x00 (Byte.of_N (Z.to_N (z mod 256))).

(** A status report carrying the given readings: the identifier, the two
    temperature bytes, the two fan speeds most significant byte first, then
    the bytes the format leaves unused. *)
Definition status_report (whole frac fan0 fan1 : Z) (unused : list byte)
    : list byte :=
  [ x04; byte_of_Z whole; byte_of_Z frac;
    byte_of_Z (fan0 / 256); byte_of_Z fan0;
    byte_of_Z (fan1 / 256); byte_of_Z fan1 ] ++ unused.

(** The bounds of the stored readings. *)
Definition in_bounds (ldata : krx62_device_data) : Prop :=
  0 <= temp_input ldata <= 280500 ∧
  Forall (λ v, 0 <= v <= 65535) (vec_to_list (fan_input ldata)).

(** ** The monitoring consumer *)

(** One call after the other, collecting what each returns. *)
Fixpoint for_each {A B} (f : A → M B) (l : list A) : M (list B) :=
  match l with
  | [] => mret []
  | a :: l' => b ← f a; bs ← for_each f l'; mret (b :: bs)
  end.

(** A poll of the values, and of the labels, of a list of channels. *)
Definition read_channels (attr val : Z) (chans : list (hwmon_sensor_types * Z))
    : M (list (Z * Z)) :=
  for_each (λ '(type, channel), krx62_read type attr channel val) chans.

Definition read_labels (attr : Z) (str : string)
    (chans : list (hwmon_sensor_types * Z)) : M (list (Z * string)) :=
  for_each (λ '(type, channel), krx62_read_string type attr channel str) chans.

(** The channels the driver declares. *)
Definition declared_channels : list (hwmon_sensor_types * Z) :=
  [(hwmon_temp, 0); (hwmon_fan, 0); (hwmon_fan, 1)].

(** ** Concrete reports *)

(** The first bytes of a status report: 30.50 degrees, fans at 3200 RPM,
    pump at 800 RPM. *)
Definition status_30_50_3200_800 : list byte :=
  [x04; x1e; x32; x0c; x80; x03; x20; x00].

(** A later status report: 40.00 degrees, 1000 RPM and 2000 RPM. *)
Definition status_40_00_1000_2000 : list byte :=
  [x04; x28; x00; x03; xe8; x07; xd0; x00].

Definition zeroes (n : nat) : list byte := replicate n x00.

(** A probe in which every kernel service succeeds. *)
Definition probe_env_ok : probe_env :=
  {| devm_kzalloc_ok := true; hid_parse := 0; hid_hw_start := 0;
     hid_hw_open := 0; devm_hwmon_device_register_with_info := 4096 |}.

(** The driver data attached to device 1 by that probe. *)
Definition ldata_probe_ok : krx62_device_data :=
  {| hid_dev := 1; hwmon_dev := 4096; temp_input := 0; fan_input := [# 0; 0] |}.

(** The driver data once the 30.50 degrees report has been decoded. *)
Definition ldata_30_50_3200_800 : krx62_device_data :=
  {| hid_dev := 1; hwmon_dev := 4096; temp_input := 35000;
     fan_input := [# 3200; 800] |}.

(** The driver data once the 40.00 degrees report has been decoded. *)
Definition ldata_40_00_1000_2000 : krx62_device_data :=
  {| hid_dev := 1; hwmon_dev := 4096; temp_input := 40000;
     fan_input := [# 1000; 2000] |}.

(** The driver data between the first and the second statement of the
    decoder, when the 40.00 degrees report follows the 30.50 degrees one. *)
Definition ldata_torn : krx62_device_data :=
  {| hid_dev := 1; hwmon_dev := 4096; temp_input := 40000;
     fan_input := [# 3200; 800] |}.

(** ** Streams of reports *)

(** A report [krx62_raw_event] decodes: the negation of its guard. *)
Definition is_status_report (ev : raw_event_args) : Prop :=
  id ev.1.1 = STATUS_REPORT_ID ∧ STATUS_MIN_BYTES <= ev.2.

Global Instance is_status_report_dec ev : Decision (is_status_report ev).
Proof. unfold is_status_report. apply _. Defined.

(** ** Attach and detach, with the kernel services called *)

(** The kernel services [krx62_probe] and [krx62_remove] call, the text
    of the log messages left out. *)
Inductive kernel_call : Set :=
  | call_devm_kzalloc
  | call_hid_info
  | call_hid_set_drvdata
  | call_hid_parse
  | call_hid_err
  | call_hid_hw_start
  | call_hid_hw_open
  | call_devm_hwmon_device_register_with_info
  | call_hid_hw_close
  | call_hid_hw_stop.

Global Instance kernel_call_eq_dec : EqDecision kernel_call.
Proof. solve_decision. Defined.

(** The label [rec_stop_hid] of [krx62_probe]. *)
Definition rec_stop_hid : list kernel_call := [call_hid_hw_stop].

(** The label [rec_close_hid], which runs into [rec_stop_hid]. *)
Definition rec_close_hid : list kernel_call := call_hid_hw_close :: rec_stop_hid.

(** [krx62_probe] once more, statement by statement, with the calls it
    makes in their order: the return value, the driver data attached and
    the calls. *)
Definition krx62_probe_run (hdev : Z) (env : probe_env)
    : Z * option krx62_device_data * list kernel_call :=
  if devm_kzalloc_ok env then
    let ldata := kzalloc_krx62_device_data in
    let ldata := {| hid_dev := hdev; hwmon_dev := hwmon_dev ldata;
                    temp_input := temp_input ldata;
                    fan_input := fan_input ldata |} in
    let entry := [call_devm_kzalloc; call_hid_info; call_hid_set_drvdata;
                  call_hid_parse] in
    if decide (hid_parse env ≠ 0) then
      (hid_parse env, Some ldata, entry ++ [call_hid_err])
    else if decide (hid_hw_start env ≠ 0) then
      (hid_hw_start env, Some ldata,
       entry ++ [call_hid_hw_start; call_hid_err] ++ rec_stop_hid)
    else if decide (hid_hw_open env ≠ 0) then
      (hid_hw_open env, Some ldata,
       entry ++ [call_hid_hw_start; call_hid_hw_open; call_hid_err]
             ++ rec_close_hid)
    else
      let hwmon := devm_hwmon_device_register_with_info env in
      if IS_ERR hwmon then
        (hwmon, Some ldata,
         entry ++ [call_hid_hw_start; call_hid_hw_open;
                   call_devm_hwmon_device_register_with_info; call_hid_err]
               ++ rec_close_hid)
      else
        (0, Some {| hid_dev := hid_dev ldata; hwmon_dev := hwmon;
                    temp_input := temp_input ldata;
                    fan_input := fan_input ldata |},
         entry ++ [call_hid_hw_start; call_hid_hw_open;
                   call_devm_hwmon_device_register_with_info; call_hid_info])
  else (- ENOMEM, None, [call_devm_kzalloc]).

(** [krx62_remove]: the calls it makes. *)
Definition krx62_remove : list kernel_call :=
  [call_hid_hw_close; call_hid_hw_stop].

(** The calls that start, open, close and stop the HID hardware. *)
Definition hid_hw_calls (calls : list kernel_call) : list kernel_call :=
  filter (λ c, c ∈ [call_hid_hw_start; call_hid_hw_open;
                    call_hid_hw_close; call_hid_hw_stop]) calls.

(** * Properties *)

(** ** C arithmetic *)

Lemma u8_range (b : byte) : 0 <= u8 b < 256.
Proof.
  unfold u8. pose proof (Byte.to_N_bounded b). lia.
Qed.

Lemma wrap_int_small (z : Z) : - 2 ^ 31 <= z < 2 ^ 31 → wrap_int z = z.
Proof.
  intros Hz. unfold wrap_int. rewrite Z.mod_small; lia.
Qed.

(** The [int] expression of the temperature never overflows. *)
Lemma temp_expr_no_overflow (whole frac : byte) :
  wrap_int (wrap_int (u8 whole * 1000) + wrap_int (u8 frac * 100))
  = u8 whole * 1000 + u8 frac * 100.
Proof.
  pose proof (u8_range whole). pose proof (u8_range frac).
  rewrite (wrap_int_small (u8 whole * 1000)) by lia.
  rewrite (wrap_int_small (u8 frac * 100)) by lia.
  apply wrap_int_small. lia.
Qed.

(** Shifting the high byte and or-ing the low one in is the positional
    value of the pair. *)
Lemma shift_or_bytes (hi lo : Z) :
  0 <= hi → 0 <= lo < 256 → Z.lor (Z.shiftl hi 8) lo = hi * 256 + lo.
Proof.
  intros Hhi Hlo.
  assert (Hdisj : Z.land (Z.shiftl hi 8) lo = 0).
  { apply Z.bits_inj'. intros n Hn.
    rewrite Z.land_spec, Z.bits_0.
    destruct (decide (n < 8)) as [Hlt|Hge].
    - rewrite Z.shiftl_spec_low by lia. done.
    - replace (Z.testbit lo n) with false; [apply andb_false_r|].
      symmetry. destruct (decide (lo = 0)) as [->|Hne]; [apply Z.bits_0|].
      apply Z.bits_above_log2; [lia|].
      apply Z.log2_lt_pow2; [lia|].
      apply Z.lt_le_trans with (2 ^ 8); [lia|].
      apply Z.pow_le_mono_r; lia. }
  rewrite <- Z.lxor_lor, <- Z.add_nocarry_lxor by done.
  rewrite Z.shiftl_mul_pow2 by lia. lia.
Qed.

(** ** Array accesses *)

Lemma index_lookup {A} (arr : list A) (i : nat) (a : A) :
  arr !! i = Some a → index arr (Z.of_nat i) = Done a.
Proof.
  intros Hi. unfold index. rewrite decide_True by lia.
  by rewrite Nat2Z.id, Hi.
Qed.

Lemma index_outside {A} (arr : list A) (i : Z) :
  ¬ (0 <= i < Z.of_nat (length arr)) → index arr i = Undef.
Proof.
  intros Hi. unfold index. case_decide; [|done].
  rewrite lookup_ge_None_2; [done | lia].
Qed.

Lemma byte_at_lookup (data : list byte) (off : nat) (b : byte) :
  data !! off = Some b → byte_at data off = u8 b.
Proof. intros Hb. unfold byte_at. by rewrite Hb. Qed.

Lemma byte_at_range (data : list byte) (off : nat) : 0 <= byte_at data off < 256.
Proof.
  unfold byte_at. destruct (data !! off) as [b|]; simpl; [apply u8_range | lia].
Qed.

Lemma big_endian_u16_range (data : list byte) (off : nat) :
  0 <= big_endian_u16 data off <= 65535.
Proof.
  unfold big_endian_u16.
  pose proof (byte_at_range data off). pose proof (byte_at_range data (off + 1)).
  lia.
Qed.

(** ** What the decoder computes from a buffer *)

Lemma temp_of_report_spec (data : list byte) :
  (2 < length data)%nat →
  temp_of_report data = Done (byte_at data 1 * 1000 + byte_at data 2 * 100).
Proof.
  intros Hlen.
  destruct (lookup_lt_is_Some_2 data 1 ltac:(lia)) as [whole Hwhole].
  destruct (lookup_lt_is_Some_2 data 2 ltac:(lia)) as [frac Hfrac].
  unfold temp_of_report.
  change (index data 1) with (index data (Z.of_nat 1)).
  change (index data 2) with (index data (Z.of_nat 2)).
  rewrite (index_lookup data 1 whole Hwhole), (index_lookup data 2 frac Hfrac).
  rewrite temp_expr_no_overflow.
  by rewrite (byte_at_lookup _ _ _ Hwhole), (byte_at_lookup _ _ _ Hfrac).
Qed.

Lemma be16_to_cpup_spec (data : list byte) (off : nat) :
  (off + 1 < length data)%nat →
  be16_to_cpup data (Z.of_nat off) = Done (big_endian_u16 data off).
Proof.
  intros Hlen.
  destruct (lookup_lt_is_Some_2 data off ltac:(lia)) as [hi Hhi].
  destruct (lookup_lt_is_Some_2 data (off + 1) ltac:(lia)) as [lo Hlo].
  unfold be16_to_cpup, big_endian_u16.
  replace (Z.of_nat off + 1) with (Z.of_nat (off + 1)) by lia.
  rewrite (index_lookup data off hi Hhi), (index_lookup data (off + 1) lo Hlo).
  rewrite (byte_at_lookup _ _ _ Hhi), (byte_at_lookup _ _ _ Hlo).
  pose proof (u8_range hi). pose proof (u8_range lo).
  by rewrite shift_or_bytes by lia.
Qed.

(** Unfolds the monad of the driver down to the outcomes. *)
Ltac unfold_M :=
  unfold mbind, M_bind, mret, M_ret, load_temp_input, load_fan_input,
    store_temp_input, store_fan_input, lift in *.

(** A report the decoder ignores. *)
Lemma krx62_raw_event_ignored report data size ldata :
  id report ≠ STATUS_REPORT_ID ∨ size < STATUS_MIN_BYTES →
  krx62_raw_event report data size ldata = Done (0, ldata).
Proof.
  intros Hign. unfold krx62_raw_event. by rewrite decide_True.
Qed.

(** A status report whose buffer holds the [size] bytes announced. *)
Lemma krx62_raw_event_status report data size ldata :
  id report = STATUS_REPORT_ID → STATUS_MIN_BYTES <= size →
  size <= Z.of_nat (length data) →
  krx62_raw_event report data size ldata
  = Done (0, {| hid_dev := hid_dev ldata; hwmon_dev := hwmon_dev ldata;
                temp_input := byte_at data 1 * 1000 + byte_at data 2 * 100;
                fan_input := [# big_endian_u16 data 3; big_endian_u16 data 5] |}).
Proof.
  unfold STATUS_MIN_BYTES. intros Hid Hmin Hsize.
  unfold krx62_raw_event. rewrite decide_False by (unfold STATUS_MIN_BYTES; lia).
  unfold_M.
  rewrite temp_of_report_spec by lia.
  change (be16_to_cpup data 3) with (be16_to_cpup data (Z.of_nat 3)).
  change (be16_to_cpup data 5) with (be16_to_cpup data (Z.of_nat 5)).
  rewrite (be16_to_cpup_spec data 3) by lia.
  rewrite (be16_to_cpup_spec data 5) by lia.
  simpl. destruct ldata as [hd hw t f]. simpl.
  do 2 f_equal. f_equal.
  inv_vec f. done.
Qed.

(** ** The wire format *)

Lemma u8_byte_of_Z (z : Z) : u8 (byte_of_Z z) = z mod 256.
Proof.
  unfold u8, byte_of_Z.
  assert (Hz : 0 <= z mod 256 < 256) by (apply Z.mod_pos_bound; lia).
  destruct (Byte.of_N (Z.to_N (z mod 256))) as [b|] eqn:Hb; simpl.
  - apply Byte.to_of_N in Hb. lia.
  - apply Byte.of_N_None_iff in Hb. lia.
Qed.

Lemma length_status_report whole frac fan0 fan1 unused :
  length (status_report whole frac fan0 fan1 unused) = (7 + length unused)%nat.
Proof. reflexivity. Qed.

Lemma status_report_temperature whole frac fan0 fan1 unused :
  0 <= whole < 256 → 0 <= frac < 256 →
  byte_at (status_report whole frac fan0 fan1 unused) 1 * 1000
  + byte_at (status_report whole frac fan0 fan1 unused) 2 * 100
  = whole * 1000 + frac * 100.
Proof.
  intros Hwhole Hfrac. unfold byte_at, status_report. simpl.
  rewrite !u8_byte_of_Z, !Z.mod_small; lia.
Qed.

Lemma status_report_fan_speed whole frac fan0 fan1 unused :
  0 <= fan0 < 65536 → 0 <= fan1 < 65536 →
  big_endian_u16 (status_report whole frac fan0 fan1 unused) 3 = fan0 ∧
  big_endian_u16 (status_report whole frac fan0 fan1 unused) 5 = fan1.
Proof.
  intros Hfan0 Hfan1. unfold big_endian_u16, byte_at, status_report. simpl.
  rewrite !u8_byte_of_Z.
  rewrite (Z.mod_small (fan0 / 256)), (Z.mod_small (fan1 / 256)).
  - pose proof (Z.div_mod fan0 256). pose proof (Z.div_mod fan1 256). lia.
  - split; [apply Z.div_pos; lia | apply Z.div_lt_upper_bound; lia].
  - split; [apply Z.div_pos; lia | apply Z.div_lt_upper_bound; lia].
Qed.

(** ** Report validation *)

(** C1. A report whose identifier is not 4, or whose buffer is shorter than
    16 bytes, leaves the driver data as it was and the decoder returns 0;
    the decoder changes the driver data only for identifier 4 and a length
    of at least 16. *)
Theorem krx62_raw_event_only_status_reports report data size ldata :
  (id report ≠ 4 ∨ size < 16 →
   krx62_raw_event report data size ldata = Done (0, ldata)) ∧
  (∀ ret ldata',
     krx62_raw_event report data size ldata = Done (ret, ldata') →
     ldata' ≠ ldata → id report = 4 ∧ 16 <= size).
Proof.
  split.
  - apply krx62_raw_event_ignored.
  - intros ret ldata' Hrun Hchanged.
    destruct (decide (id report ≠ STATUS_REPORT_ID ∨ size < STATUS_MIN_BYTES))
      as [Hign|Hstatus].
    + rewrite krx62_raw_event_ignored in Hrun by done. congruence.
    + unfold STATUS_REPORT_ID, STATUS_MIN_BYTES in Hstatus.
      destruct (decide (id report = 4)); [lia | tauto].
Qed.

Lemma krx62_raw_event_only_status_reports_witness :
  krx62_raw_event {| id := 1 |} (status_30_50_3200_800 ++ zeroes 8) 16
    kzalloc_krx62_device_data
  = Done (0, kzalloc_krx62_device_data) ∧
  krx62_raw_event {| id := 4 |} (status_30_50_3200_800 ++ zeroes 7) 15
    kzalloc_krx62_device_data
  = Done (0, kzalloc_krx62_device_data) ∧
  (id {| id := 4 |} = 4 ∧ 16 <= 16).
Proof.
  split; [|split].
  - apply (krx62_raw_event_only_status_reports {| id := 1 |}). left. simpl. lia.
  - apply (krx62_raw_event_only_status_reports {| id := 4 |}). right. lia.
  - apply (proj2 (krx62_raw_event_only_status_reports {| id := 4 |}
                    (status_30_50_3200_800 ++ zeroes 8) 16
                    kzalloc_krx62_device_data)
             0 {| hid_dev := 0; hwmon_dev := 0; temp_input := 35000;
                  fan_input := [# 3200; 800] |}).
    + vm_compute. reflexivity.
    + intros Heq. apply (f_equal temp_input) in Heq. simpl in Heq. lia.
Defined.

(** ** Decoded fields *)

(** C2. For a report with identifier 4 and at least 16 bytes the decoder
    stores byte[1] * 1000 + byte[2] * 100 as the temperature; for the bytes
    04 1E 32 0C 80 03 20 00 ... that is 35000. *)
Theorem krx62_raw_event_temperature :
  (∀ report data size ldata,
     id report = 4 → 16 <= size → size <= Z.of_nat (length data) →
     ∃ ldata',
       krx62_raw_event report data size ldata = Done (0, ldata') ∧
       temp_input ldata' = byte_at data 1 * 1000 + byte_at data 2 * 100) ∧
  (∀ unused ldata,
     length unused = 8%nat →
     ∃ ldata',
       krx62_raw_event {| id := 4 |} (status_30_50_3200_800 ++ unused) 16 ldata
       = Done (0, ldata') ∧
       temp_input ldata' = 35000).
Proof.
  split.
  - intros report data size ldata Hid Hmin Hsize.
    eexists. split; [by apply krx62_raw_event_status|]. done.
  - intros unused ldata Hlen.
    eexists. split.
    + apply krx62_raw_event_status; [done | done |].
      rewrite length_app, Hlen. simpl. lia.
    + reflexivity.
Qed.

Lemma krx62_raw_event_temperature_witness :
  ∃ ldata',
    krx62_raw_event {| id := 4 |} (status_40_00_1000_2000 ++ zeroes 8) 16
      kzalloc_krx62_device_data = Done (0, ldata') ∧
    temp_input ldata' = 40 * 1000 + 0 * 100.
Proof.
  apply (proj1 krx62_raw_event_temperature {| id := 4 |}
           (status_40_00_1000_2000 ++ zeroes 8) 16 kzalloc_krx62_device_data).
  - reflexivity.
  - lia.
  - simpl. lia.
Defined.

(** C3. For a report with identifier 4 and at least 16 bytes the decoder
    stores the big-endian 16-bit unsigned integer of bytes 3-4 as
    fan_input[0] and that of bytes 5-6 as fan_input[1]; for the bytes
    04 1E 32 0C 80 03 20 00 ... these are 3200 and 800. *)
Theorem krx62_raw_event_fan_speeds :
  (∀ report data size ldata,
     id report = 4 → 16 <= size → size <= Z.of_nat (length data) →
     ∃ ldata',
       krx62_raw_event report data size ldata = Done (0, ldata') ∧
       fan_input ldata' !!! 0%fin = big_endian_u16 data 3 ∧
       fan_input ldata' !!! 1%fin = big_endian_u16 data 5) ∧
  (∀ unused ldata,
     length unused = 8%nat →
     ∃ ldata',
       krx62_raw_event {| id := 4 |} (status_30_50_3200_800 ++ unused) 16 ldata
       = Done (0, ldata') ∧
       fan_input ldata' = [# 3200; 800]).
Proof.
  split.
  - intros report data size ldata Hid Hmin Hsize.
    eexists. split; [by apply krx62_raw_event_status|]. done.
  - intros unused ldata Hlen.
    eexists. split.
    + apply krx62_raw_event_status; [done | done |].
      rewrite length_app, Hlen. simpl. lia.
    + reflexivity.
Qed.

Lemma krx62_raw_event_fan_speeds_witness :
  ∃ ldata',
    krx62_raw_event {| id := 4 |} (status_40_00_1000_2000 ++ zeroes 8) 16
      kzalloc_krx62_device_data = Done (0, ldata') ∧
    fan_input ldata' !!! 0%fin = 1000 ∧
    fan_input ldata' !!! 1%fin = 2000.
Proof.
  apply (proj1 krx62_raw_event_fan_speeds {| id := 4 |}
           (status_40_00_1000_2000 ++ zeroes 8) 16 kzalloc_krx62_device_data).
  - reflexivity.
  - lia.
  - simpl. lia.
Defined.

(** ** Channel reads *)

(** Reading never writes the driver data. *)
Lemma krx62_read_keeps_ldata type attr channel val ldata res ldata' :
  krx62_read type attr channel val ldata = Done (res, ldata') → ldata' = ldata.
Proof.
  unfold krx62_read. unfold_M.
  destruct type; try (intros [= _ <-]; done).
  destruct (index _ _); [intros [= _ <-]; done | done].
Qed.

Lemma krx62_read_string_keeps_ldata type attr channel str ldata res ldata' :
  krx62_read_string type attr channel str ldata = Done (res, ldata') →
  ldata' = ldata.
Proof.
  unfold krx62_read_string. unfold_M.
  destruct type; try (intros [= _ <-]; done).
  destruct (index _ _); [intros [= _ <-]; done | done].
Qed.

(** The fan branch of [krx62_read] has no error return. *)
Lemma krx62_read_fan_returns_0 attr channel val ldata res ldata' :
  krx62_read hwmon_fan attr channel val ldata = Done (res, ldata') →
  res.1 = 0.
Proof.
  unfold krx62_read. unfold_M.
  destruct (index _ _); [intros [= <- _]; done | done].
Qed.

(** A poll of the declared channels returns the three stored readings, in
    the order of the table. *)
Lemma read_channels_declared attr val ldata :
  read_channels attr val declared_channels ldata
  = Done ([(0, temp_input ldata);
           (0, fan_input ldata !!! 0%fin);
           (0, fan_input ldata !!! 1%fin)], ldata).
Proof.
  destruct ldata as [hd hw t f]. inv_vec f. intros f0 f1. reflexivity.
Qed.

(** C4, amended. A read of a value or of a label for a channel kind other
    than temperature and fan speed fails with -EINVAL, whatever the index,
    and leaves the driver data and the caller's output as they were. The
    fan index is not checked: the fan branch has no error return. *)
Theorem krx62_read_unsupported_kind type attr channel val str ldata :
  type ≠ hwmon_temp → type ≠ hwmon_fan →
  krx62_read type attr channel val ldata = Done ((- EINVAL, val), ldata) ∧
  krx62_read_string type attr channel str ldata
  = Done ((- EINVAL, str), ldata) ∧
  (∀ channel' res ldata',
     krx62_read hwmon_fan attr channel' val ldata = Done (res, ldata') →
     res.1 = 0 ∧ ldata' = ldata).
Proof.
  intros Htemp Hfan. split; [|split].
  - destruct type; done.
  - destruct type; done.
  - intros channel' res ldata' Hread. split.
    + by eapply krx62_read_fan_returns_0.
    + by eapply krx62_read_keeps_ldata.
Qed.

Lemma krx62_read_unsupported_kind_witness :
  krx62_read hwmon_pwm 0 0 7 kzalloc_krx62_device_data
  = Done ((- 22, 7), kzalloc_krx62_device_data) ∧
  krx62_read_string hwmon_pwm 0 0 "" kzalloc_krx62_device_data
  = Done ((- 22, ""), kzalloc_krx62_device_data).
Proof.
  pose proof (krx62_read_unsupported_kind hwmon_pwm 0 0 7 ""
                kzalloc_krx62_device_data ltac:(discriminate)
                ltac:(discriminate)) as (Hread & Hlabel & _).
  split; [exact Hread | exact Hlabel].
Defined.

(** C4, as stated, fails: for fan index 2 neither [krx62_read] nor
    [krx62_read_string] returns -EINVAL; both index their array with 2. *)
Lemma krx62_read_fan_index_2 :
  krx62_read hwmon_fan 0 2 7 kzalloc_krx62_device_data
  ≠ Done ((- EINVAL, 7), kzalloc_krx62_device_data) ∧
  krx62_read hwmon_fan 0 2 7 kzalloc_krx62_device_data = Undef ∧
  krx62_read_string hwmon_fan 0 2 "" kzalloc_krx62_device_data
  ≠ Done ((- EINVAL, ""), kzalloc_krx62_device_data) ∧
  krx62_read_string hwmon_fan 0 2 "" kzalloc_krx62_device_data = Undef.
Proof. repeat split; done. Qed.

(** C5. Decoding a status report and then polling the declared channels
    returns the temperature and the two fan speeds the report encodes, in
    the order temperature, fan 0, fan 1; for a report built from readings,
    the poll returns these readings. *)
Theorem decode_then_read_round_trip :
  (∀ report data size attr val ldata,
     id report = 4 → 16 <= size → size <= Z.of_nat (length data) →
     ∃ ldata',
       (krx62_raw_event report data size;;
        read_channels attr val declared_channels) ldata
       = Done ([(0, byte_at data 1 * 1000 + byte_at data 2 * 100);
                (0, big_endian_u16 data 3);
                (0, big_endian_u16 data 5)], ldata')) ∧
  (∀ whole frac fan0 fan1 unused attr val ldata,
     0 <= whole < 256 → 0 <= frac < 256 →
     0 <= fan0 < 65536 → 0 <= fan1 < 65536 → length unused = 9%nat →
     ∃ ldata',
       (krx62_raw_event {| id := 4 |}
          (status_report whole frac fan0 fan1 unused) 16;;
        read_channels attr val declared_channels) ldata
       = Done ([(0, whole * 1000 + frac * 100); (0, fan0); (0, fan1)], ldata')).
Proof.
  split.
  - intros report data size attr val ldata Hid Hmin Hsize.
    eexists. unfold mbind at 1, M_bind.
    rewrite krx62_raw_event_status by done.
    by rewrite read_channels_declared.
  - intros whole frac fan0 fan1 unused attr val ldata
      Hwhole Hfrac Hfan0 Hfan1 Hlen.
    eexists. unfold mbind at 1, M_bind.
    rewrite krx62_raw_event_status;
      [| done | done | rewrite length_status_report, Hlen; simpl; lia].
    rewrite read_channels_declared. simpl.
    rewrite status_report_temperature by done.
    destruct (status_report_fan_speed whole frac fan0 fan1 unused)
      as [-> ->]; done.
Qed.

Lemma decode_then_read_round_trip_witness :
  ∃ ldata',
    (krx62_raw_event {| id := 4 |} (status_report 30 50 3200 800 (zeroes 9)) 16;;
     read_channels 0 0 declared_channels) kzalloc_krx62_device_data
    = Done ([(0, 30 * 1000 + 50 * 100); (0, 3200); (0, 800)], ldata').
Proof.
  apply (proj2 decode_then_read_round_trip 30 50 3200 800 (zeroes 9) 0 0
           kzalloc_krx62_device_data); try lia. reflexivity.
Defined.

(** ** Visibility *)

(** C8. Whatever the type, the attribute and the channel,
    [krx62_is_visible] returns the mode 0444, which has no write bit
    (0222). *)
Theorem krx62_is_visible_read_only data type attr channel :
  krx62_is_visible data type attr channel = 4 * 64 + 4 * 8 + 4 ∧
  Z.land (krx62_is_visible data type attr channel) (2 * 64 + 2 * 8 + 2) = 0.
Proof. split; reflexivity. Qed.

(** ** The sensor table *)

Lemma BIT_lor_nonzero (a b : Z) :
  0 <= a < 32 → 0 <= b < 32 → wrap_u32 (Z.lor (BIT a) (BIT b)) ≠ 0.
Proof.
  intros Ha Hb Hzero.
  assert (Hbit : Z.testbit (wrap_u32 (Z.lor (BIT a) (BIT b))) a = true).
  { unfold wrap_u32, BIT. rewrite Z.mod_pow2_bits_low by lia.
    rewrite Z.lor_spec, Z.shiftl_spec, Z.sub_diag by lia. done. }
  rewrite Hzero, Z.bits_0 in Hbit. done.
Qed.

Lemma config_words_HWMON_CHANNEL_INFO stype words :
  Forall (λ w, wrap_u32 w ≠ 0) words →
  config_words (config (HWMON_CHANNEL_INFO stype words)) = wrap_u32 <$> words.
Proof.
  unfold HWMON_CHANNEL_INFO. cbn [config].
  induction 1 as [|w words Hw _ IH]; csimpl.
  - done.
  - rewrite decide_False by done. by rewrite IH.
Qed.

Lemma list_channels_krx62_info ti tl fi fl :
  0 <= ti < 32 → 0 <= tl < 32 → 0 <= fi < 32 → 0 <= fl < 32 →
  list_channels (krx62_info ti tl fi fl) = declared_channels.
Proof.
  intros Hti Htl Hfi Hfl.
  unfold list_channels, krx62_info, HWMON_T_INPUT, HWMON_T_LABEL,
    HWMON_F_INPUT, HWMON_F_LABEL.
  cbn [table_entries mbind list_bind].
  rewrite !config_words_HWMON_CHANNEL_INFO
    by (repeat constructor; by apply BIT_lor_nonzero).
  reflexivity.
Qed.

(** C6. The table [krx62_info] declares three channels, one temperature
    channel and two fan channels, whatever the driver data (the table is a
    constant); reading the label of each gives "Coolant" for the
    temperature, "Fans" for fan 0 and "Pump" for fan 1. *)
Theorem krx62_info_channels_and_labels ti tl fi fl :
  0 <= ti < 32 → 0 <= tl < 32 → 0 <= fi < 32 → 0 <= fl < 32 →
  list_channels (krx62_info ti tl fi fl)
  = [(hwmon_temp, 0); (hwmon_fan, 0); (hwmon_fan, 1)] ∧
  ∀ attr str ldata,
    read_labels attr str (list_channels (krx62_info ti tl fi fl)) ldata
    = Done ([(0, "Coolant"); (0, "Fans"); (0, "Pump")], ldata).
Proof.
  intros Hti Htl Hfi Hfl.
  rewrite list_channels_krx62_info by done.
  split; [done|]. intros attr str ldata. reflexivity.
Qed.

Lemma krx62_info_channels_and_labels_witness :
  list_channels (krx62_info 0 15 0 2)
  = [(hwmon_temp, 0); (hwmon_fan, 0); (hwmon_fan, 1)] ∧
  read_labels 0 "" (list_channels (krx62_info 0 15 0 2))
    kzalloc_krx62_device_data
  = Done ([(0, "Coolant"); (0, "Fans"); (0, "Pump")],
          kzalloc_krx62_device_data).
Proof.
  destruct (krx62_info_channels_and_labels 0 15 0 2
              ltac:(lia) ltac:(lia) ltac:(lia) ltac:(lia)) as [Hchans Hlabels].
  split; [exact Hchans | apply Hlabels].
Defined.

(** ** Before the first status report *)

Lemma krx62_probe_zeroed hdev env ret ldata :
  krx62_probe hdev env = (ret, Some ldata) →
  temp_input ldata = 0 ∧ fan_input ldata = [# 0; 0].
Proof.
  unfold krx62_probe. repeat case_match; intros [= _ <-]; done.
Qed.

Lemma raw_events_ignored evs ldata :
  Forall (λ '(report, _, size),
            id report ≠ STATUS_REPORT_ID ∨ size < STATUS_MIN_BYTES) evs →
  raw_events evs ldata = Done (tt, ldata).
Proof.
  induction 1 as [|[[report data] size] evs Hign _ IH]; simpl.
  - done.
  - unfold mbind, M_bind. by rewrite krx62_raw_event_ignored.
Qed.

(** C7. The driver data attached by [krx62_probe] is zeroed, and as long as
    only ignored reports have arrived, a poll of the declared channels
    succeeds and returns 0 for the temperature and for both fan speeds. *)
Theorem krx62_probe_zero_snapshot hdev env ret ldata evs attr val :
  krx62_probe hdev env = (ret, Some ldata) →
  Forall (λ '(report, _, size), id report ≠ 4 ∨ size < 16) evs →
  temp_input ldata = 0 ∧ fan_input ldata = [# 0; 0] ∧
  (raw_events evs;; read_channels attr val declared_channels) ldata
  = Done ([(0, 0); (0, 0); (0, 0)], ldata).
Proof.
  intros Hprobe Hign.
  destruct (krx62_probe_zeroed _ _ _ _ Hprobe) as [Htemp Hfan].
  split; [done|]. split; [done|].
  unfold mbind at 1, M_bind. rewrite raw_events_ignored by done.
  by rewrite read_channels_declared, Htemp, Hfan.
Qed.

Lemma krx62_probe_zero_snapshot_witness :
  temp_input ldata_probe_ok = 0 ∧ fan_input ldata_probe_ok = [# 0; 0] ∧
  (raw_events [({| id := 2 |}, status_30_50_3200_800 ++ zeroes 8, 16);
               ({| id := 4 |}, status_30_50_3200_800, 8)];;
   read_channels 0 0 declared_channels) ldata_probe_ok
  = Done ([(0, 0); (0, 0); (0, 0)], ldata_probe_ok).
Proof.
  apply (krx62_probe_zero_snapshot 1 probe_env_ok 0).
  - reflexivity.
  - repeat constructor; simpl; lia.
Defined.

(** ** Bounds of the stored readings *)

Lemma temp_of_report_range data t :
  temp_of_report data = Done t → 0 <= t <= 280500.
Proof.
  unfold temp_of_report.
  destruct (index data 1) as [whole|]; [|done].
  destruct (index data 2) as [frac|]; [|done].
  intros [= <-]. rewrite temp_expr_no_overflow.
  pose proof (u8_range whole). pose proof (u8_range frac). lia.
Qed.

Lemma be16_to_cpup_range data off f :
  be16_to_cpup data off = Done f → 0 <= f <= 65535.
Proof.
  unfold be16_to_cpup.
  destruct (index data off) as [hi|]; [|done].
  destruct (index data (off + 1)) as [lo|]; [|done].
  intros [= <-].
  pose proof (u8_range hi). pose proof (u8_range lo).
  rewrite shift_or_bytes; lia.
Qed.

Lemma krx62_probe_in_bounds hdev env ret ldata :
  krx62_probe hdev env = (ret, Some ldata) → in_bounds ldata.
Proof.
  intros Hprobe. destruct (krx62_probe_zeroed _ _ _ _ Hprobe) as [Htemp Hfan].
  unfold in_bounds. rewrite Htemp, Hfan. split; [lia|].
  repeat constructor; lia.
Qed.

Lemma krx62_raw_event_in_bounds report data size ldata ret ldata' :
  in_bounds ldata →
  krx62_raw_event report data size ldata = Done (ret, ldata') →
  in_bounds ldata'.
Proof.
  intros Hinv. unfold krx62_raw_event. case_decide.
  - by intros [= _ <-].
  - unfold_M.
    destruct (temp_of_report data) as [t|] eqn:Ht; [|done].
    destruct (be16_to_cpup data 3) as [f0|] eqn:Hf0; [|done].
    destruct (be16_to_cpup data 5) as [f1|] eqn:Hf1; [|done].
    intros [= _ <-]. unfold in_bounds. simpl.
    apply temp_of_report_range in Ht.
    apply be16_to_cpup_range in Hf0. apply be16_to_cpup_range in Hf1.
    split; [done|].
    destruct ldata as [hd hw t0 f]. simpl. inv_vec f. intros a b.
    repeat constructor; lia.
Qed.

(** With a buffer that holds the bytes announced, the decoder returns. *)
Lemma krx62_raw_event_returns report data size ldata :
  size <= Z.of_nat (length data) →
  ∃ ldata', krx62_raw_event report data size ldata = Done (0, ldata').
Proof.
  intros Hsize.
  destruct (decide (id report ≠ STATUS_REPORT_ID ∨ size < STATUS_MIN_BYTES))
    as [Hign|Hstatus].
  - eexists. by apply krx62_raw_event_ignored.
  - eexists. apply krx62_raw_event_status; [|lia|done].
    destruct (decide (id report = STATUS_REPORT_ID)); tauto.
Qed.

Lemma reachable_bounds ldata : reachable ldata → in_bounds ldata.
Proof.
  induction 1 as [hdev env ret ldata Hprobe
                 |ldata report data size ret ldata' _ IH Hrun
                 |ldata type attr channel val res ldata' _ IH Hread
                 |ldata type attr channel str res ldata' _ IH Hread].
  - by eapply krx62_probe_in_bounds.
  - by eapply krx62_raw_event_in_bounds.
  - by rewrite (krx62_read_keeps_ldata _ _ _ _ _ _ _ Hread).
  - by rewrite (krx62_read_string_keeps_ldata _ _ _ _ _ _ _ Hread).
Qed.

Lemma raw_events_returns evs ldata :
  in_bounds ldata →
  Forall (λ '(_, data, size), size <= Z.of_nat (length data)) evs →
  ∃ ldata', raw_events evs ldata = Done (tt, ldata') ∧ in_bounds ldata'.
Proof.
  intros Hinv Hevs. revert ldata Hinv.
  induction Hevs as [|[[report data] size] evs Hsize _ IH]; intros ldata Hinv.
  - by exists ldata.
  - destruct (krx62_raw_event_returns report data size ldata Hsize)
      as [ldata1 Hrun].
    destruct (IH ldata1) as (ldata' & Hrest & Hinv').
    { by eapply krx62_raw_event_in_bounds. }
    exists ldata'. split; [|done].
    simpl. unfold mbind, M_bind. by rewrite Hrun.
Qed.

(** C10. After the attach and any sequence of decoder calls, the
    temperature is between 0 and 280500 and each fan speed between 0 and
    65535; the same holds with channel reads in between, and the values fit
    a [long]; the decoder and the reads preserve the bounds, and the decoder
    returns for every buffer that holds the bytes announced. *)
Theorem reachable_in_bounds :
  (∀ hdev env ret ldata evs,
     krx62_probe hdev env = (ret, Some ldata) →
     Forall (λ '(_, data, size), size <= Z.of_nat (length data)) evs →
     ∃ ldata', raw_events evs ldata = Done (tt, ldata') ∧ in_bounds ldata') ∧
  (∀ ldata,
     reachable ldata →
     in_bounds ldata ∧
     temp_input ldata <= LONG_MAX ∧
     Forall (λ v, v <= LONG_MAX) (vec_to_list (fan_input ldata))) ∧
  (∀ report data size ldata,
     in_bounds ldata → size <= Z.of_nat (length data) →
     ∃ ldata',
       krx62_raw_event report data size ldata = Done (0, ldata') ∧
       in_bounds ldata') ∧
  (∀ type attr channel val ldata res ldata',
     in_bounds ldata →
     krx62_read type attr channel val ldata = Done (res, ldata') →
     in_bounds ldata').
Proof.
  split; [|split; [|split]].
  - intros hdev env ret ldata evs Hprobe Hevs.
    apply raw_events_returns; [|done]. by eapply krx62_probe_in_bounds.
  - intros ldata Hreach. apply reachable_bounds in Hreach as Hinv.
    split; [done|]. destruct Hinv as [Htemp Hfan].
    split; [unfold LONG_MAX; lia|].
    eapply Forall_impl; [exact Hfan|]. simpl. unfold LONG_MAX. lia.
  - intros report data size ldata Hinv Hsize.
    destruct (krx62_raw_event_returns report data size ldata Hsize)
      as [ldata' Hrun].
    exists ldata'. split; [done|]. by eapply krx62_raw_event_in_bounds.
  - intros type attr channel val ldata res ldata' Hinv Hread.
    by rewrite (krx62_read_keeps_ldata _ _ _ _ _ _ _ Hread).
Qed.

Lemma ldata_30_50_3200_800_reachable : reachable ldata_30_50_3200_800.
Proof.
  eapply (reachable_raw_event ldata_probe_ok {| id := 4 |}
            (status_30_50_3200_800 ++ zeroes 8) 16 0).
  - by eapply (reachable_probe 1 probe_env_ok 0).
  - reflexivity.
Defined.

Lemma in_bounds_ldata_30_50_3200_800 : in_bounds ldata_30_50_3200_800.
Proof. split; [simpl; lia | repeat constructor; lia]. Defined.

Lemma reachable_in_bounds_witness :
  (∃ ldata',
     raw_events [({| id := 4 |}, status_30_50_3200_800 ++ zeroes 8, 16);
                 ({| id := 4 |}, status_40_00_1000_2000 ++ zeroes 8, 16)]
       ldata_probe_ok = Done (tt, ldata') ∧
     in_bounds ldata') ∧
  (in_bounds ldata_30_50_3200_800 ∧
   temp_input ldata_30_50_3200_800 <= LONG_MAX ∧
   Forall (λ v, v <= LONG_MAX) (vec_to_list (fan_input ldata_30_50_3200_800))) ∧
  (∃ ldata',
     krx62_raw_event {| id := 4 |} (status_40_00_1000_2000 ++ zeroes 8) 16
       ldata_30_50_3200_800 = Done (0, ldata') ∧
     in_bounds ldata') ∧
  in_bounds ldata_30_50_3200_800.
Proof.
  destruct reachable_in_bounds as (Hseq & Hreach & Hdecode & Hread).
  split; [|split; [|split]].
  - apply (Hseq 1 probe_env_ok 0).
    + reflexivity.
    + repeat constructor; simpl; lia.
  - apply (Hreach ldata_30_50_3200_800).
    exact ldata_30_50_3200_800_reachable.
  - apply (Hdecode {| id := 4 |} (status_40_00_1000_2000 ++ zeroes 8) 16
             ldata_30_50_3200_800).
    + exact in_bounds_ldata_30_50_3200_800.
    + simpl. lia.
  - apply (Hread hwmon_fan 0 1 0 ldata_30_50_3200_800 (0, 800)
             ldata_30_50_3200_800).
    + exact in_bounds_ldata_30_50_3200_800.
    + reflexivity.
Defined.

(** ** The decoder seen from another CPU *)

(** Run without interruption, the stores of the decoder are the decoder. *)
Lemma krx62_raw_event_stores_run report data size ldata :
  ¬ (id report ≠ STATUS_REPORT_ID ∨ size < STATUS_MIN_BYTES) →
  krx62_raw_event report data size ldata
  = (run_stores (krx62_raw_event_stores data);; mret 0) ldata.
Proof.
  intros Hstatus. unfold krx62_raw_event. rewrite decide_False by done.
  unfold krx62_raw_event_stores, run_stores. unfold_M.
  destruct (temp_of_report data); [|done].
  destruct (be16_to_cpup data 3); [|done].
  destruct (be16_to_cpup data 5); done.
Qed.

(** The last of the states a run goes through is the one it ends in. *)
Lemma states_after_last stores ldata ldata' :
  stores ≠ [] →
  run_stores stores ldata = Done (tt, ldata') →
  last (states_after stores ldata) = Some ldata'.
Proof.
  revert ldata. induction stores as [|s stores IH]; [done|].
  intros ldata _. simpl. unfold mbind, M_bind.
  destruct (s ldata) as [[[] ldata1]|]; [|done].
  destruct stores as [|s' stores].
  - simpl. by intros [= ->].
  - intros Hrun. specialize (IH ldata1 ltac:(done) Hrun).
    simpl in Hrun, IH |- *. unfold mbind, M_bind in Hrun.
    destruct (s' ldata1) as [[[] ldata2]|]; [exact IH | done].
Qed.

(** C9 fails on the code. When the 40.00 degrees report is decoded after
    the 30.50 degrees one, the driver data between the first and the second
    store of [krx62_raw_event] holds the temperature of the new report and
    the fan speeds of the old one: it is neither the data before the call
    nor the data after it, and a poll of the channels at that point returns
    the mix. *)
Theorem krx62_raw_event_torn_state :
  krx62_raw_event {| id := 4 |} (status_30_50_3200_800 ++ zeroes 8) 16
    ldata_probe_ok = Done (0, ldata_30_50_3200_800) ∧
  krx62_raw_event {| id := 4 |} (status_40_00_1000_2000 ++ zeroes 8) 16
    ldata_30_50_3200_800 = Done (0, ldata_40_00_1000_2000) ∧
  ldata_torn ∈ visible_states {| id := 4 |}
                 (status_40_00_1000_2000 ++ zeroes 8) 16 ldata_30_50_3200_800 ∧
  temp_input ldata_torn = temp_input ldata_40_00_1000_2000 ∧
  fan_input ldata_torn = fan_input ldata_30_50_3200_800 ∧
  ldata_torn ≠ ldata_30_50_3200_800 ∧
  ldata_torn ≠ ldata_40_00_1000_2000 ∧
  read_channels 0 0 declared_channels ldata_torn
  = Done ([(0, 40000); (0, 3200); (0, 800)], ldata_torn).
Proof.
  split; [reflexivity|]. split; [reflexivity|].
  split; [|done].
  apply list_elem_of_In. vm_compute. left. reflexivity.
Qed.

(** * Further properties of the decoder *)

Lemma index_ext {A} (arr arr' : list A) (i : Z) :
  arr !! Z.to_nat i = arr' !! Z.to_nat i → index arr i = index arr' i.
Proof. intros Heq. unfold index. by rewrite Heq. Qed.

(** A status report with at least seven bytes in its buffer. *)
Lemma krx62_raw_event_seven_bytes report data size ldata :
  id report = STATUS_REPORT_ID → STATUS_MIN_BYTES <= size →
  (7 <= length data)%nat →
  krx62_raw_event report data size ldata
  = Done (0, {| hid_dev := hid_dev ldata; hwmon_dev := hwmon_dev ldata;
                temp_input := byte_at data 1 * 1000 + byte_at data 2 * 100;
                fan_input := [# big_endian_u16 data 3; big_endian_u16 data 5] |}).
Proof.
  intros Hid Hmin Hlen.
  unfold krx62_raw_event. rewrite decide_False by lia.
  unfold_M.
  rewrite temp_of_report_spec by lia.
  change (be16_to_cpup data 3) with (be16_to_cpup data (Z.of_nat 3)).
  change (be16_to_cpup data 5) with (be16_to_cpup data (Z.of_nat 5)).
  rewrite (be16_to_cpup_spec data 3) by lia.
  rewrite (be16_to_cpup_spec data 5) by lia.
  destruct ldata as [hd hw t f]. simpl. inv_vec f. done.
Qed.

(** X1. The decoder reads the bytes at offsets 1 to 6 and no other: two
    buffers that agree there are decoded alike, whatever their byte 0, their
    bytes from offset 7 on and their lengths. *)
Theorem krx62_raw_event_reads_bytes_1_to_6 report data data' size ldata :
  (∀ i, (1 <= i <= 6)%nat → data !! i = data' !! i) →
  krx62_raw_event report data size ldata
  = krx62_raw_event report data' size ldata.
Proof.
  intros Hagree. unfold krx62_raw_event, temp_of_report, be16_to_cpup.
  rewrite (index_ext data data' 1), (index_ext data data' 2),
    (index_ext data data' 3), (index_ext data data' (3 + 1)),
    (index_ext data data' 5), (index_ext data data' (5 + 1));
    [done | apply Hagree; simpl; lia ..].
Qed.

Lemma krx62_raw_event_reads_bytes_1_to_6_witness :
  krx62_raw_event {| id := 4 |} (status_30_50_3200_800 ++ zeroes 8) 16
    ldata_probe_ok
  = krx62_raw_event {| id := 4 |}
      [xff; x1e; x32; x0c; x80; x03; x20; x55; xaa] 16 ldata_probe_ok.
Proof.
  apply krx62_raw_event_reads_bytes_1_to_6.
  intros i Hi.
  destruct i as [|[|[|[|[|[|[|i]]]]]]]; try reflexivity; lia.
Defined.

(** X2. The decoder reads outside the buffer exactly when it is handed a status
    report (identifier 4, [size] at least 16) whose buffer has fewer than
    seven bytes; it trusts [size] and never compares it with the buffer. *)
Theorem krx62_raw_event_out_of_bounds_iff report data size ldata :
  krx62_raw_event report data size ldata = Undef ↔
  id report = 4 ∧ 16 <= size ∧ (length data < 7)%nat.
Proof.
  split.
  - intros Hundef.
    destruct (decide (id report ≠ STATUS_REPORT_ID ∨ size < STATUS_MIN_BYTES))
      as [Hign|Hstatus].
    { by rewrite krx62_raw_event_ignored in Hundef. }
    unfold STATUS_REPORT_ID, STATUS_MIN_BYTES in Hstatus.
    assert (id report = 4 ∧ 16 <= size) as [Hid Hmin].
    { destruct (decide (id report = 4)); [lia | tauto]. }
    destruct (decide (7 <= length data)%nat) as [Hlen|Hlen]; [|lia].
    by rewrite krx62_raw_event_seven_bytes in Hundef.
  - intros (Hid & Hmin & Hlen).
    unfold krx62_raw_event.
    rewrite decide_False by (unfold STATUS_REPORT_ID, STATUS_MIN_BYTES; lia).
    unfold_M. unfold temp_of_report, be16_to_cpup, index.
    do 7 (destruct data as [|? data]; [reflexivity|]).
    simpl in Hlen. lia.
Qed.

Lemma krx62_raw_event_out_of_bounds_iff_witness :
  krx62_raw_event {| id := 4 |} [x04; x1e; x32; x0c; x80; x03] 16
    ldata_probe_ok = Undef ∧
  (id {| id := 4 |} = 4 ∧ 16 <= 64 ∧ (length [x04; x1e; x32] < 7)%nat).
Proof.
  split.
  - apply krx62_raw_event_out_of_bounds_iff. simpl. lia.
  - apply (krx62_raw_event_out_of_bounds_iff {| id := 4 |} [x04; x1e; x32] 64
             ldata_probe_ok). reflexivity.
Defined.

(** X3. The decoder has no error return and never writes the two pointers of
    the driver data. *)
Theorem krx62_raw_event_keeps_pointers report data size ldata ret ldata' :
  krx62_raw_event report data size ldata = Done (ret, ldata') →
  ret = 0 ∧ hid_dev ldata' = hid_dev ldata ∧ hwmon_dev ldata' = hwmon_dev ldata.
Proof.
  unfold krx62_raw_event. case_decide.
  - by intros [= <- <-].
  - unfold_M.
    destruct (temp_of_report data); [|done].
    destruct (be16_to_cpup data 3); [|done].
    destruct (be16_to_cpup data 5); [|done].
    by intros [= <- <-].
Qed.

Lemma krx62_raw_event_keeps_pointers_witness :
  0 = 0 ∧ hid_dev ldata_30_50_3200_800 = hid_dev ldata_probe_ok ∧
  hwmon_dev ldata_30_50_3200_800 = hwmon_dev ldata_probe_ok.
Proof.
  apply (krx62_raw_event_keeps_pointers {| id := 4 |}
           (status_30_50_3200_800 ++ zeroes 8) 16). reflexivity.
Defined.

(** X4. Decoding the same report twice in a row is decoding it once. *)
Theorem krx62_raw_event_idempotent report data size ldata :
  (krx62_raw_event report data size;; krx62_raw_event report data size) ldata
  = krx62_raw_event report data size ldata.
Proof.
  unfold krx62_raw_event. case_decide; [done|].
  unfold_M.
  destruct (temp_of_report data); [|done].
  destruct (be16_to_cpup data 3); [|done].
  destruct (be16_to_cpup data 5); [|done].
  destruct ldata as [hd hw t f]. simpl. inv_vec f. done.
Qed.

(** ** Streams of reports *)

Lemma raw_events_app evs1 evs2 ldata :
  raw_events (evs1 ++ evs2) ldata
  = (raw_events evs1;; raw_events evs2) ldata.
Proof.
  revert ldata. induction evs1 as [|[[report data] size] evs1 IH];
    intros ldata; simpl.
  - done.
  - unfold mbind, M_bind in *.
    destruct (krx62_raw_event report data size ldata) as [[ret ldata1]|];
      [apply IH | done].
Qed.

(** X5. The reports the decoder ignores can be taken out of a stream: what
    the stream does is what its status reports do. *)
Theorem raw_events_filter_status evs ldata :
  raw_events evs ldata = raw_events (filter is_status_report evs) ldata.
Proof.
  revert ldata. induction evs as [|[[report data] size] evs IH]; intros ldata.
  - done.
  - rewrite filter_cons. case_decide as Hstatus.
    + simpl. unfold mbind, M_bind.
      destruct (krx62_raw_event report data size ldata) as [[ret ldata1]|];
        [apply IH | done].
    + simpl. unfold mbind, M_bind.
      rewrite krx62_raw_event_ignored; [apply IH|].
      unfold is_status_report in Hstatus. simpl in Hstatus.
      destruct (decide (id report = STATUS_REPORT_ID)); [right; lia | by left].
Qed.

Lemma raw_events_keep_pointers evs ldata ldata' :
  raw_events evs ldata = Done (tt, ldata') →
  hid_dev ldata' = hid_dev ldata ∧ hwmon_dev ldata' = hwmon_dev ldata.
Proof.
  revert ldata. induction evs as [|[[report data] size] evs IH];
    intros ldata; simpl.
  - by intros [= <-].
  - unfold mbind, M_bind.
    destruct (krx62_raw_event report data size ldata) as [[ret ldata1]|] eqn:Hrun;
      [|done].
    intros Hrest. apply IH in Hrest as [-> ->].
    by apply krx62_raw_event_keeps_pointers in Hrun as (_ & -> & ->).
Qed.

Lemma raw_events_returns_any evs ldata :
  Forall (λ '(_, data, size), size <= Z.of_nat (length data)) evs →
  ∃ ldata', raw_events evs ldata = Done (tt, ldata').
Proof.
  intros Hevs. revert ldata.
  induction Hevs as [|[[report data] size] evs Hsize _ IH]; intros ldata.
  - by exists ldata.
  - destruct (krx62_raw_event_returns report data size ldata Hsize)
      as [ldata1 Hrun].
    destruct (IH ldata1) as [ldata' Hrest].
    exists ldata'. simpl. unfold mbind, M_bind. by rewrite Hrun.
Qed.

(** X6. The last status report of a stream decides the readings: whatever
    came before it, and whatever ignored reports come after it, the driver
    data ends with the temperature and the fan speeds of that report, and
    with the pointers it had. *)
Theorem raw_events_last_status_report evs1 report data size evs2 ldata :
  Forall (λ '(_, data, size), size <= Z.of_nat (length data)) evs1 →
  id report = 4 → 16 <= size → size <= Z.of_nat (length data) →
  Forall (λ '(report, _, size), id report ≠ 4 ∨ size < 16) evs2 →
  raw_events (evs1 ++ (report, data, size) :: evs2) ldata
  = Done (tt, {| hid_dev := hid_dev ldata; hwmon_dev := hwmon_dev ldata;
                 temp_input := byte_at data 1 * 1000 + byte_at data 2 * 100;
                 fan_input := [# big_endian_u16 data 3;
                                 big_endian_u16 data 5] |}).
Proof.
  intros Hevs1 Hid Hmin Hsize Hevs2.
  destruct (raw_events_returns_any evs1 ldata Hevs1) as [ldata1 Hrun1].
  destruct (raw_events_keep_pointers _ _ _ Hrun1) as [Hhid Hhwmon].
  rewrite raw_events_app. unfold mbind at 1, M_bind. rewrite Hrun1.
  simpl. unfold mbind, M_bind.
  rewrite krx62_raw_event_status by done.
  rewrite raw_events_ignored by done.
  by rewrite Hhid, Hhwmon.
Qed.

Lemma raw_events_last_status_report_witness :
  raw_events
    ([({| id := 4 |}, status_30_50_3200_800 ++ zeroes 8, 16);
      ({| id := 9 |}, zeroes 4, 4)]
     ++ ({| id := 4 |}, status_40_00_1000_2000 ++ zeroes 8, 16)
     :: [({| id := 4 |}, status_30_50_3200_800, 8)])
    ldata_probe_ok
  = Done (tt, ldata_40_00_1000_2000).
Proof.
  apply (raw_events_last_status_report
           [({| id := 4 |}, status_30_50_3200_800 ++ zeroes 8, 16);
            ({| id := 9 |}, zeroes 4, 4)]
           {| id := 4 |} (status_40_00_1000_2000 ++ zeroes 8) 16
           [({| id := 4 |}, status_30_50_3200_800, 8)] ldata_probe_ok).
  - repeat constructor; simpl; lia.
  - reflexivity.
  - lia.
  - simpl. lia.
  - repeat constructor; simpl; lia.
Defined.

(** ** The resolution of the temperature *)

Lemma temp_of_report_multiple_of_100 data t :
  temp_of_report data = Done t → t mod 100 = 0.
Proof.
  unfold temp_of_report.
  destruct (index data 1) as [whole|]; [|done].
  destruct (index data 2) as [frac|]; [|done].
  intros [= <-]. rewrite temp_expr_no_overflow.
  replace (u8 whole * 1000 + u8 frac * 100)
    with ((u8 whole * 10 + u8 frac) * 100) by lia.
  apply Z.mod_mul. lia.
Qed.

(** X7. The stored temperature is always a whole number of tenths of a degree:
    in every driver data reached from the attach, [temp_input] is a
    multiple of 100. *)
Theorem reachable_temp_input_multiple_of_100 ldata :
  reachable ldata → temp_input ldata mod 100 = 0.
Proof.
  induction 1 as [hdev env ret ldata Hprobe
                 |ldata report data size ret ldata' _ IH Hrun
                 |ldata type attr channel val res ldata' _ IH Hread
                 |ldata type attr channel str res ldata' _ IH Hread].
  - by destruct (krx62_probe_zeroed _ _ _ _ Hprobe) as [-> _].
  - revert Hrun. unfold krx62_raw_event. case_decide.
    + by intros [= _ <-].
    + unfold_M.
      destruct (temp_of_report data) as [t|] eqn:Ht; [|done].
      destruct (be16_to_cpup data 3); [|done].
      destruct (be16_to_cpup data 5); [|done].
      intros [= _ <-]. simpl. by eapply temp_of_report_multiple_of_100.
  - by rewrite (krx62_read_keeps_ldata _ _ _ _ _ _ _ Hread).
  - by rewrite (krx62_read_string_keeps_ldata _ _ _ _ _ _ _ Hread).
Qed.

Lemma reachable_temp_input_multiple_of_100_witness :
  temp_input ldata_30_50_3200_800 mod 100 = 0.
Proof.
  apply reachable_temp_input_multiple_of_100.
  exact ldata_30_50_3200_800_reachable.
Defined.

(** ** Reports with the same readings *)

Lemma u8_inj (b b' : byte) : u8 b = u8 b' → b = b'.
Proof.
  unfold u8. intros Heq. apply N2Z.inj in Heq.
  pose proof (Byte.of_to_N b) as Hb. pose proof (Byte.of_to_N b') as Hb'.
  rewrite Heq in Hb. congruence.
Qed.

Lemma byte_at_inj (data data' : list byte) (i : nat) :
  (i < length data)%nat → (i < length data')%nat →
  byte_at data i = byte_at data' i → data !! i = data' !! i.
Proof.
  intros Hlen Hlen'.
  destruct (lookup_lt_is_Some_2 data i Hlen) as [b Hb].
  destruct (lookup_lt_is_Some_2 data' i Hlen') as [b' Hb'].
  rewrite (byte_at_lookup _ _ _ Hb), (byte_at_lookup _ _ _ Hb'), Hb, Hb'.
  by intros ->%u8_inj.
Qed.

(** X8. Two status reports decoded to the same driver data have the same bytes
    at offsets 3 to 6, and the same bytes at offsets 1 and 2 when both
    bytes 2 are below 10; above, the temperature does not tell the bytes
    apart (0 and 10 give what 1 and 0 give). *)
Theorem krx62_raw_event_same_readings report data size report' data' size' ldata :
  id report = 4 → 16 <= size → size <= Z.of_nat (length data) →
  id report' = 4 → 16 <= size' → size' <= Z.of_nat (length data') →
  krx62_raw_event report data size ldata
  = krx62_raw_event report' data' size' ldata →
  (∀ i, (3 <= i <= 6)%nat → data !! i = data' !! i) ∧
  (byte_at data 2 < 10 → byte_at data' 2 < 10 →
   ∀ i, (1 <= i <= 2)%nat → data !! i = data' !! i).
Proof.
  intros Hid Hmin Hsize Hid' Hmin' Hsize'.
  rewrite !krx62_raw_event_status by done.
  intros [= Htemp Hfan0 Hfan1]. unfold big_endian_u16 in Hfan0, Hfan1.
  pose proof (byte_at_range data 1). pose proof (byte_at_range data' 1).
  pose proof (byte_at_range data 2). pose proof (byte_at_range data' 2).
  pose proof (byte_at_range data 3). pose proof (byte_at_range data' 3).
  pose proof (byte_at_range data (3 + 1)).
  pose proof (byte_at_range data' (3 + 1)).
  pose proof (byte_at_range data 5). pose proof (byte_at_range data' 5).
  pose proof (byte_at_range data (5 + 1)).
  pose proof (byte_at_range data' (5 + 1)).
  split.
  - intros i Hi. apply byte_at_inj; [lia | lia |].
    assert (i = 3 ∨ i = 3 + 1 ∨ i = 5 ∨ i = 5 + 1)%nat
      as [-> | [-> | [-> | ->]]] by lia; lia.
  - intros Hfrac Hfrac' i Hi. apply byte_at_inj; [lia | lia |].
    assert (i = 1 ∨ i = 2)%nat as [-> | ->] by lia; lia.
Qed.

Lemma krx62_raw_event_same_readings_witness :
  (∀ i, (3 <= i <= 6)%nat →
        (status_30_50_3200_800 ++ zeroes 8) !! i
        = (status_30_50_3200_800 ++ replicate 8 xff) !! i) ∧
  (byte_at (status_30_50_3200_800 ++ zeroes 8) 2 < 10 →
   byte_at (status_30_50_3200_800 ++ replicate 8 xff) 2 < 10 →
   ∀ i, (1 <= i <= 2)%nat →
        (status_30_50_3200_800 ++ zeroes 8) !! i
        = (status_30_50_3200_800 ++ replicate 8 xff) !! i).
Proof.
  apply (krx62_raw_event_same_readings {| id := 4 |} _ 16 {| id := 4 |} _ 16
           ldata_probe_ok); try reflexivity; simpl; lia.
Defined.

(** ** What a reader can find during a decode *)

(** X9. While a status report is decoded the driver data goes through three
    states: the new temperature with both old fan speeds, then the new
    temperature and fan 0 with the old fan 1, then the result of the call.
    The pointers are the same in all. *)
Theorem visible_states_status_report report data size ldata :
  id report = 4 → 16 <= size → size <= Z.of_nat (length data) →
  ∃ ldata',
    krx62_raw_event report data size ldata = Done (0, ldata') ∧
    visible_states report data size ldata
    = [ {| hid_dev := hid_dev ldata; hwmon_dev := hwmon_dev ldata;
           temp_input := temp_input ldata';
           fan_input := fan_input ldata |};
        {| hid_dev := hid_dev ldata; hwmon_dev := hwmon_dev ldata;
           temp_input := temp_input ldata';
           fan_input := [# fan_input ldata' !!! 0%fin;
                           fan_input ldata !!! 1%fin] |};
        ldata' ].
Proof.
  intros Hid Hmin Hsize. eexists. split.
  { by apply krx62_raw_event_status. }
  unfold visible_states.
  rewrite decide_False by (unfold STATUS_REPORT_ID, STATUS_MIN_BYTES; lia).
  unfold krx62_raw_event_stores, states_after. unfold_M.
  rewrite temp_of_report_spec by lia.
  change (be16_to_cpup data 3) with (be16_to_cpup data (Z.of_nat 3)).
  change (be16_to_cpup data 5) with (be16_to_cpup data (Z.of_nat 5)).
  rewrite (be16_to_cpup_spec data 3) by lia.
  rewrite (be16_to_cpup_spec data 5) by lia.
  destruct ldata as [hd hw t f]. simpl. inv_vec f. done.
Qed.

Lemma visible_states_status_report_witness :
  ∃ ldata',
    krx62_raw_event {| id := 4 |} (status_40_00_1000_2000 ++ zeroes 8) 16
      ldata_30_50_3200_800 = Done (0, ldata') ∧
    visible_states {| id := 4 |} (status_40_00_1000_2000 ++ zeroes 8) 16
      ldata_30_50_3200_800
    = [ {| hid_dev := hid_dev ldata_30_50_3200_800;
           hwmon_dev := hwmon_dev ldata_30_50_3200_800;
           temp_input := temp_input ldata';
           fan_input := fan_input ldata_30_50_3200_800 |};
        {| hid_dev := hid_dev ldata_30_50_3200_800;
           hwmon_dev := hwmon_dev ldata_30_50_3200_800;
           temp_input := temp_input ldata';
           fan_input := [# fan_input ldata' !!! 0%fin;
                           fan_input ldata_30_50_3200_800 !!! 1%fin] |};
        ldata' ].
Proof.
  apply visible_states_status_report; [reflexivity | lia | simpl; lia].
Defined.

(** * Further properties of the sensor callbacks *)

Lemma index_Undef_iff {A} (arr : list A) (i : Z) :
  index arr i = Undef ↔ ¬ (0 <= i < Z.of_nat (length arr)).
Proof.
  split; [|apply index_outside].
  intros Hundef Hin. unfold index in Hundef.
  rewrite decide_True in Hundef by lia.
  destruct (lookup_lt_is_Some_2 arr (Z.to_nat i) ltac:(lia)) as [a Ha].
  by rewrite Ha in Hundef.
Qed.

(** X10. A read goes outside [fan_input], and a label read outside
    [krx62_fan_label], exactly for a fan channel below 0 or above 1: the
    callbacks do not check the channel, and the temperature branch does not
    use it. *)
Theorem krx62_read_out_of_bounds_iff type attr channel val str ldata :
  (krx62_read type attr channel val ldata = Undef ↔
   type = hwmon_fan ∧ ¬ (0 <= channel < 2)) ∧
  (krx62_read_string type attr channel str ldata = Undef ↔
   type = hwmon_fan ∧ ¬ (0 <= channel < 2)).
Proof.
  split.
  - unfold krx62_read. unfold_M.
    destruct type; try (split; [done | by intros []]).
    pose proof (index_Undef_iff (vec_to_list (fan_input ldata)) channel)
      as Hidx.
    rewrite length_vec_to_list in Hidx.
    change (Z.of_nat KRX62_RPM_INPUTS) with 2 in Hidx.
    destruct (index _ channel).
    + split; [done|]. intros [_ Hout]. by apply Hidx in Hout.
    + split; [|done]. intros _. split; [done|]. by apply Hidx.
  - unfold krx62_read_string. unfold_M.
    destruct type; try (split; [done | by intros []]).
    pose proof (index_Undef_iff krx62_fan_label channel) as Hidx.
    change (Z.of_nat (length krx62_fan_label)) with 2 in Hidx.
    destruct (index _ channel).
    + split; [done|]. intros [_ Hout]. by apply Hidx in Hout.
    + split; [|done]. intros _. split; [done|]. by apply Hidx.
Qed.

Lemma krx62_read_out_of_bounds_iff_witness :
  krx62_read hwmon_fan 0 (-1) 0 ldata_probe_ok = Undef ∧
  krx62_read_string hwmon_fan 0 2 "" ldata_probe_ok = Undef.
Proof.
  destruct (krx62_read_out_of_bounds_iff hwmon_fan 0 (-1) 0 "" ldata_probe_ok)
    as [Hread _].
  destruct (krx62_read_out_of_bounds_iff hwmon_fan 0 2 0 "" ldata_probe_ok)
    as [_ Hlabel].
  split; [apply Hread | apply Hlabel]; (split; [reflexivity | lia]).
Defined.

(** X11. A poll of any list of channels leaves the driver data as it was, so
    the same poll made again returns the same values. *)
Theorem read_channels_repeatable attr val chans ldata res ldata' :
  read_channels attr val chans ldata = Done (res, ldata') →
  ldata' = ldata ∧ read_channels attr val chans ldata' = Done (res, ldata').
Proof.
  intros Hpoll. assert (ldata' = ldata) as ->; [|done].
  revert res Hpoll. unfold read_channels.
  induction chans as [|[type channel] chans IH]; intros res; simpl.
  - by intros [= _ <-].
  - unfold mbind, M_bind, mret, M_ret.
    destruct (krx62_read type attr channel val ldata) as [[r ldata1]|] eqn:Hread;
      [|done].
    apply krx62_read_keeps_ldata in Hread as ->.
    destruct (for_each _ chans ldata) as [[rs ldata2]|] eqn:Hrest; [|done].
    intros [= _ <-]. by eapply IH.
Qed.

Lemma read_channels_repeatable_witness :
  ldata_30_50_3200_800 = ldata_30_50_3200_800 ∧
  read_channels 0 0 [(hwmon_fan, 1); (hwmon_pwm, 0); (hwmon_temp, 7)]
    ldata_30_50_3200_800
  = Done ([(0, 800); (- 22, 0); (0, 35000)], ldata_30_50_3200_800).
Proof.
  apply (read_channels_repeatable 0 0
           [(hwmon_fan, 1); (hwmon_pwm, 0); (hwmon_temp, 7)]).
  reflexivity.
Defined.

(** ** The table and the callbacks together *)

(** X12. Every channel [krx62_info] declares is served: its value read and its
    label read return 0, stay inside [fan_input] and [krx62_fan_label], and
    the label is not empty. *)
Theorem krx62_info_channels_served ti tl fi fl type channel attr val str ldata :
  0 <= ti < 32 → 0 <= tl < 32 → 0 <= fi < 32 → 0 <= fl < 32 →
  (type, channel) ∈ list_channels (krx62_info ti tl fi fl) →
  (∃ v, krx62_read type attr channel val ldata = Done ((0, v), ldata)) ∧
  (∃ s, krx62_read_string type attr channel str ldata = Done ((0, s), ldata) ∧
        s ≠ "").
Proof.
  intros Hti Htl Hfi Hfl. rewrite list_channels_krx62_info by done.
  unfold declared_channels. rewrite !elem_of_cons, elem_of_nil.
  destruct ldata as [hd hw t f]. inv_vec f. intros f0 f1.
  intros [[= -> ->]|[[= -> ->]|[[= -> ->]|[]]]];
    (split; eexists; [reflexivity | split; [reflexivity | done]]).
Qed.

Lemma krx62_info_channels_served_witness :
  (∃ v, krx62_read hwmon_fan 0 1 0 ldata_30_50_3200_800
        = Done ((0, v), ldata_30_50_3200_800)) ∧
  (∃ s, krx62_read_string hwmon_fan 0 1 "" ldata_30_50_3200_800
        = Done ((0, s), ldata_30_50_3200_800) ∧ s ≠ "").
Proof.
  apply (krx62_info_channels_served 0 15 0 2); try lia.
  apply list_elem_of_In. vm_compute. right. right. left. reflexivity.
Defined.





(** * Attach and detach *)

Lemma IS_ERR_nonzero (ptr : Z) : IS_ERR ptr = true → ptr ≠ 0.
Proof. unfold IS_ERR. intros Herr%bool_decide_eq_true. lia. Qed.

(** Splits [krx62_probe] and [krx62_probe_run] along their tests; a
    failed registration comes with its nonzero pointer. *)
Ltac probe_cases env :=
  unfold krx62_probe_run, krx62_probe, rec_close_hid, rec_stop_hid;
  destruct (devm_kzalloc_ok env);
  destruct (decide (hid_parse env ≠ 0));
  destruct (decide (hid_hw_start env ≠ 0));
  destruct (decide (hid_hw_open env ≠ 0));
  let Herr := fresh "Herr" in
  destruct (IS_ERR (devm_hwmon_device_register_with_info env)) eqn:Herr;
  try apply IS_ERR_nonzero in Herr;
  cbn [fst snd app].

(** X14. [krx62_probe] returns 0 exactly when the allocation and the four
    kernel services succeeded; the driver data then holds the HID device,
    the registered hwmon device and zero readings. Every failure gives a
    nonzero return value. *)
Theorem krx62_probe_returns_0_iff hdev env :
  ((krx62_probe hdev env).1 = 0 ↔
   devm_kzalloc_ok env = true ∧ hid_parse env = 0 ∧ hid_hw_start env = 0 ∧
   hid_hw_open env = 0 ∧
   IS_ERR (devm_hwmon_device_register_with_info env) = false) ∧
  ((krx62_probe hdev env).1 = 0 →
   (krx62_probe hdev env).2
   = Some {| hid_dev := hdev;
             hwmon_dev := devm_hwmon_device_register_with_info env;
             temp_input := 0; fan_input := [# 0; 0] |}).
Proof.
  probe_cases env;
    (split; [split; [intros ?; try done; try lia
                    |intros (? & ? & ? & ? & ?); try done; try lia]
            |intros ?; try done; try lia]).
Qed.

Lemma krx62_probe_returns_0_iff_witness :
  (krx62_probe 1 probe_env_ok).1 = 0 ∧
  (krx62_probe 1 probe_env_ok).2 = Some ldata_probe_ok.
Proof.
  destruct (krx62_probe_returns_0_iff 1 probe_env_ok) as [Hiff Hdata].
  assert (Hret : (krx62_probe 1 probe_env_ok).1 = 0).
  { apply Hiff. repeat split. }
  split; [exact Hret | exact (Hdata Hret)].
Defined.

(** X15. [krx62_probe_run] returns what [krx62_probe] returns. It calls
    [hid_hw_stop] exactly when it has called [hid_hw_start] and fails, and
    [hid_hw_close] exactly when it has called [hid_hw_open] and fails,
    whether that call itself succeeded or not; [hid_hw_stop] is then its
    last call. Every failure but that of the allocation is logged with
    [hid_err]. *)
Theorem krx62_probe_run_cleanup hdev env :
  (krx62_probe_run hdev env).1 = krx62_probe hdev env ∧
  (call_hid_hw_stop ∈ (krx62_probe_run hdev env).2 ↔
   call_hid_hw_start ∈ (krx62_probe_run hdev env).2 ∧
   (krx62_probe hdev env).1 ≠ 0) ∧
  (call_hid_hw_close ∈ (krx62_probe_run hdev env).2 ↔
   call_hid_hw_open ∈ (krx62_probe_run hdev env).2 ∧
   (krx62_probe hdev env).1 ≠ 0) ∧
  (call_hid_hw_stop ∈ (krx62_probe_run hdev env).2 →
   last (krx62_probe_run hdev env).2 = Some call_hid_hw_stop) ∧
  (call_hid_err ∈ (krx62_probe_run hdev env).2 ↔
   devm_kzalloc_ok env = true ∧ (krx62_probe hdev env).1 ≠ 0).
Proof.
  probe_cases env; (split; [done|]);
    rewrite ?elem_of_cons, ?elem_of_nil; unfold ENOMEM;
    repeat split; intros; try done; try lia; intuition congruence.
Qed.

Lemma krx62_probe_run_cleanup_witness :
  last (krx62_probe_run 1
          {| devm_kzalloc_ok := true; hid_parse := 0; hid_hw_start := 0;
             hid_hw_open := - 19;
             devm_hwmon_device_register_with_info := 4096 |}).2
  = Some call_hid_hw_stop.
Proof.
  apply krx62_probe_run_cleanup.
  apply list_elem_of_In. vm_compute. tauto.
Defined.

(** X16. The calls on the HID hardware are balanced over the life of a device:
    a failed probe, or a successful one followed by [krx62_remove], starts
    and stops it once, with the open and the close in between if the probe
    came to open it, or does not start it at all. *)
Theorem hid_hw_calls_balanced hdev env :
  hid_hw_calls
    ((krx62_probe_run hdev env).2
     ++ if decide ((krx62_probe_run hdev env).1.1 = 0) then krx62_remove
        else [])
  ∈ [ [];
      [call_hid_hw_start; call_hid_hw_stop];
      [call_hid_hw_start; call_hid_hw_open;
       call_hid_hw_close; call_hid_hw_stop] ].
Proof.
  probe_cases env;
    case_decide as Hret; simpl in Hret; unfold ENOMEM in Hret;
    try (exfalso; first [done | lia]);
    apply list_elem_of_In; vm_compute; tauto.
Qed.
